(** * ClipAPI: the two embedding endpoints and the model wrapper

    A shallow embedding of [app/models.py] and [app/routes.py].

    The repository is glue over three external libraries (transformers,
    PIL, torch) and one framework (FastAPI / Starlette).  None of their
    code is part of the repository, so every library entry point the
    source calls is a field of the record [Library] below, and the
    handlers are translated line by line on top of it.  Python's
    exceptions are an explicit [result]; the module-level globals
    [model] and [processor], torch's grad mode and the standard output
    are threaded through a [World]. *)

From Stdlib Require Import ZArith Floats.
From stdpp Require Import base strings list gmap.

#[local] Set Warnings "-register-all".
#[local] Open Scope string_scope.

(** ** Python values *)

(** The values [json.loads] produces and the handlers return. *)
Inductive pyval : Type :=
  | PNone
  | PBool (b : bool)
  | PInt (n : Z)
  | PFloat (x : float)
  | PStr (s : string)
  | PList (l : list pyval)
  | PDict (d : gmap string pyval).

(** Python truth value testing, as used by [not text]. *)
Definition truthy (v : pyval) : bool :=
  match v with
  | PNone => false
  | PBool b => b
  | PInt n => negb (n =? 0)%Z
  | PFloat x => negb (PrimFloat.eqb x 0%float)
  | PStr s => negb (String.eqb s "")
  | PList l => match l with [] => false | _ :: _ => true end
  | PDict d => negb (bool_decide (d = ∅))
  end.

Definition is_number (v : pyval) : bool :=
  match v with
  | PInt _ | PFloat _ => true
  | _ => false
  end.

Definition is_float (v : pyval) : bool :=
  match v with
  | PFloat _ => true
  | _ => false
  end.

(** A flat sequence of numbers: a list each of whose elements is a number. *)
Definition flat_numbers (v : pyval) : bool :=
  match v with
  | PList l => forallb is_number l
  | _ => false
  end.

Definition float_list (v : pyval) : bool :=
  match v with
  | PList l => forallb is_float l
  | _ => false
  end.

(** A list of rows, each row a list of floats. *)
Definition nested_floats (v : pyval) : bool :=
  match v with
  | PList rows => forallb float_list rows
  | _ => false
  end.

(** [len(v)] for the container values. *)
Definition py_len (v : pyval) : option nat :=
  match v with
  | PStr s => Some (String.length s)
  | PList l => Some (length l)
  | PDict d => Some (size d)
  | _ => None
  end.

(** [key in v] for a dict [v]. *)
Definition has_key (k : string) (v : pyval) : bool :=
  match v with
  | PDict d => bool_decide (is_Some (d !! k))
  | _ => false
  end.

(** ** Exceptions *)

Inductive exn : Type :=
  | AttributeError (msg : string)
  | LibraryError (origin : string) (msg : string).

Inductive result (A : Type) : Type :=
  | Ok (a : A)
  | Raise (e : exn).
Arguments Ok {A} a.
Arguments Raise {A} e.

(** ** Tensors *)

(** [get_text_features] and [get_image_features] return a
    [torch.FloatTensor] of shape [(batch_size, output_dim)]: a list of
    rows. *)
Definition tensor : Type := list (list float).

(** [Tensor.tolist()]: the tensor as a nested list, one Python list per
    dimension. *)
Definition row_tolist (r : list float) : pyval := PList (map PFloat r).
Definition tolist (t : tensor) : pyval := PList (map row_tolist t).

(** ** The external libraries *)

Record Library : Type := {
  Image : Type;
  Inputs : Type;
  Model : Type;
  Processor : Type;
  (** [CLIPModel.from_pretrained], [CLIPProcessor.from_pretrained] *)
  model_from_pretrained : string -> Model;
  processor_from_pretrained : string -> Processor;
  (** [json.loads] on a request body *)
  json_loads : list Byte.byte -> result pyval;
  (** the builtin [str], used by the f-string *)
  py_str : pyval -> string;
  (** [sys.stdout.write], as [print] calls it on a text: it returns, or
      raises when the stream cannot take the text ([UnicodeEncodeError]
      when the stream's encoding has no code for some character of
      it) *)
  stdout_write : string -> result unit;
  (** [Image.open(io.BytesIO(b))] *)
  image_open : list Byte.byte -> result Image;
  (** [processor(text=xs, return_tensors="pt")] *)
  processor_text : Processor -> list pyval -> result Inputs * Processor;
  (** [processor(images=img, return_tensors="pt")] *)
  processor_images : Processor -> Image -> result Inputs * Processor;
  (** [model.get_text_features] on the unpacked inputs, under the given
      grad mode *)
  get_text_features : Model -> bool -> Inputs -> result tensor * Model;
  (** [model.get_image_features] on the unpacked inputs, under the given
      grad mode *)
  get_image_features : Model -> bool -> Inputs -> result tensor * Model;
}.

(** ** The process state *)

Record World (L : Library) : Type := mkWorld {
  model : Model L;
  processor : Processor L;
  grad_enabled : bool;
  stdout : list string;
}.
Arguments mkWorld {L} _ _ _ _.
Arguments model {L} _.
Arguments processor {L} _.
Arguments grad_enabled {L} _.
Arguments stdout {L} _.

(** A computation that reads and writes the world and may raise. *)
Definition M (L : Library) (A : Type) : Type := World L -> result A * World L.

Definition ret {L A} (a : A) : M L A := fun w => (Ok a, w).

Definition raise {L A} (e : exn) : M L A := fun w => (Raise e, w).

Definition bind {L A B} (m : M L A) (k : A -> M L B) : M L B :=
  fun w =>
    match m w with
    | (Ok a, w') => k a w'
    | (Raise e, w') => (Raise e, w')
    end.

Notation "'let*' x := m 'in' k" := (bind m (fun x => k))
  (at level 10, x name, m at level 100, k at level 200, format "'[' 'let*'  x  :=  m  'in' ']' '//' k").

Definition lift {L A} (r : result A) : M L A := fun w => (r, w).

Section Program.
Context {L : Library}.

(** The world after [models.py] has been imported. *)
Definition startup : World L :=
  mkWorld (model_from_pretrained L "openai/clip-vit-base-patch32")
          (processor_from_pretrained L "openai/clip-vit-base-patch32")
          true [].

(** Calling the module-level [processor]: the object is looked up in the
    world and what the call leaves of it is stored back. *)
Definition call_processor_text (xs : list pyval) : M L (Inputs L) :=
  fun w =>
    let '(r, p) := processor_text L (processor w) xs in
    (r, mkWorld (model w) p (grad_enabled w) (stdout w)).

Definition call_processor_images (img : Image L) : M L (Inputs L) :=
  fun w =>
    let '(r, p) := processor_images L (processor w) img in
    (r, mkWorld (model w) p (grad_enabled w) (stdout w)).

(** Calling a method of the module-level [model] under the grad mode in
    force. *)
Definition call_get_text_features (i : Inputs L) : M L tensor :=
  fun w =>
    let '(r, m) := get_text_features L (model w) (grad_enabled w) i in
    (r, mkWorld m (processor w) (grad_enabled w) (stdout w)).

Definition call_get_image_features (i : Inputs L) : M L tensor :=
  fun w =>
    let '(r, m) := get_image_features L (model w) (grad_enabled w) i in
    (r, mkWorld m (processor w) (grad_enabled w) (stdout w)).

Definition set_grad_enabled (b : bool) (w : World L) : World L :=
  mkWorld (model w) (processor w) b (stdout w).

(** [with torch.no_grad(): body]: grad mode is switched off on entry and
    the previous mode is put back on exit, also when [body] raises. *)
Definition with_no_grad {A} (body : M L A) : M L A :=
  fun w =>
    let prev := grad_enabled w in
    let '(r, w') := body (set_grad_enabled false w) in
    (r, set_grad_enabled prev w').

(** [print(s)]: the line is written to the standard output, or the
    stream's exception is raised and nothing is written. *)
Definition print (s : string) : M L unit :=
  fun w =>
    match stdout_write L s with
    | Ok _ => (Ok tt, mkWorld (model w) (processor w) (grad_enabled w)
                              (stdout w ++ [s]))
    | Raise e => (Raise e, w)
    end.

(** *** models.py *)

Record UploadFile : Type := { content : list Byte.byte }.

Definition file_read (file : UploadFile) : M L (list Byte.byte) :=
  ret (content file).

Definition get_image_embedding (file : UploadFile) : M L pyval :=
  let* bytes := file_read file in
  let* image := lift (image_open L bytes) in
  let* inputs := call_processor_images image in
  let* image_embedding := with_no_grad (call_get_image_features inputs) in
  ret (tolist image_embedding).

Definition get_text_embedding (text : pyval) : M L pyval :=
  let* inputs := call_processor_text [text] in
  let* text_embedding := with_no_grad (call_get_text_features inputs) in
  ret (tolist text_embedding).

(** *** routes.py *)

Record Request : Type := { body : list Byte.byte }.

(** [await request.json()] *)
Definition request_json (request : Request) : M L pyval :=
  lift (json_loads L (body request)).

(** [obj.get(key)]: only a dict has the method; a missing key gives
    [None]. *)
Definition py_get (obj : pyval) (key : string) : M L pyval :=
  match obj with
  | PDict d => ret (default PNone (d !! key))
  | _ => raise (AttributeError "object has no attribute 'get'")
  end.

Definition error_payload : pyval :=
  PDict {[ "error" := PStr "Text parameter is missing." ]}.

Definition embedding_payload (e : pyval) : pyval :=
  PDict {[ "embedding" := e ]}.

Definition embed_image (file : UploadFile) : M L pyval :=
  let* e := get_image_embedding file in
  ret (embedding_payload e).

Definition embed_text (request : Request) : M L pyval :=
  let* body := request_json request in
  let* text := py_get body "text" in
  if negb (truthy text) then
    ret error_payload
  else
    let* _ := print ("Received text: " ++ py_str L text) in
    let* e := get_text_embedding text in
    ret (embedding_payload e).

(** The line the handler prints. *)
Definition received_line (text : pyval) : string :=
  "Received text: " ++ py_str L text.

(** The world in which [get_text_embedding] starts once the handler has
    printed its line. *)
Definition after_print (text : pyval) (w : World L) : World L :=
  mkWorld (model w) (processor w) (grad_enabled w)
          (stdout w ++ ["Received text: " ++ py_str L text]).

(** *** The framework's view of a handler *)

(** What the decorator registers: [router.post(path)] is given no
    [status_code], and the handler is the decorated coroutine. *)
Record Route : Type := {
  path : string;
  status_code : option Z;
  endpoint : Type;
  handler : endpoint -> M L pyval;
}.

Definition embed_image_route : Route :=
  {| path := "/embed_image/"; status_code := None; handler := embed_image |}.

Definition embed_text_route : Route :=
  {| path := "/embed_text/"; status_code := None; handler := embed_text |}.

Inductive Response : Type :=
  | JSONResponse (status : Z) (content : pyval)
  | ServerError (status : Z) (e : exn).

Definition response_status (r : Response) : Z :=
  match r with
  | JSONResponse s _ => s
  | ServerError s _ => s
  end.

(** FastAPI serialises what a handler returns with the route's status
    code, 200 when the decorator names none; an exception that no
    handler catches becomes a 500 response. *)
Definition serve (rt : Route) (arg : endpoint rt) (w : World L)
  : Response * World L :=
  match handler rt arg w with
  | (Ok v, w') => (JSONResponse (default 200%Z (status_code rt)) v, w')
  | (Raise e, w') => (ServerError 500 e, w')
  end.

End Program.

Arguments received_line : clear implicits.

(** ** What the claims assume of the libraries *)

Section Contracts.
Variable L : Library.

(** The documented output shape of the encoder held in [m], fed by the
    processor held in [p]: one row of [dim] floats per element of the
    batch handed to the processor, [dim] being the width of that
    model.  Only the forward pass with grad mode off is concerned. *)
Definition text_shape_of (m : Model L) (p : Processor L) (dim : nat) : Prop :=
  forall xs i p' t m',
    processor_text L p xs = (Ok i, p') ->
    get_text_features L m false i = (Ok t, m') ->
    length t = length xs /\ Forall (fun r => length r = dim) t.

Definition image_shape_of (m : Model L) (p : Processor L) (dim : nat) : Prop :=
  forall img i p' t m',
    processor_images L p img = (Ok i, p') ->
    get_image_features L m false i = (Ok t, m') ->
    length t = 1 /\ Forall (fun r => length r = dim) t.

(** Preprocessing leaves the processor object as it was. *)
Definition processor_readonly : Prop :=
  (forall p xs, (processor_text L p xs).2 = p) /\
  (forall p img, (processor_images L p img).2 = p).

(** A forward pass with grad mode off leaves the model object as it
    was.  Nothing is asked of a forward pass with grad mode on. *)
Definition no_grad_forward_readonly : Prop :=
  (forall m i, (get_text_features L m false i).2 = m) /\
  (forall m i, (get_image_features L m false i).2 = m).

End Contracts.

(** The dimensions of a returned embedding: the number of rows and the
    length of each row. *)
Definition embedding_dims (v : pyval) : list (option nat) :=
  match v with
  | PList rows => map py_len rows
  | _ => []
  end.

(** The spec's "missing or empty": no ["text"] key, or the empty string. *)
Definition text_missing_or_empty (d : gmap string pyval) : Prop :=
  d !! "text" = None \/ d !! "text" = Some (PStr "").

(** ** A small library instance

    A stand-in with the shape of the real libraries, on which the
    handlers can be run: a body decoder that knows a handful of
    documents, a standard output that takes ASCII text only, an image
    opener that checks the PNG signature, a processor that accepts
    strings only, and an encoder that returns
    one row of two floats per input and counts the forward passes made
    with grad mode on. *)
Module Toy.

Definition dq : string := String (Ascii.ascii_of_nat 34) EmptyString.

Definition bytes_of (s : string) : list Byte.byte := String.list_byte_of_string s.

Definition doc_cat : string := "{" ++ dq ++ "text" ++ dq ++ ": " ++ dq ++ "cat" ++ dq ++ "}".
Definition doc_empty : string := "{" ++ dq ++ "text" ++ dq ++ ": " ++ dq ++ dq ++ "}".
Definition doc_zero : string := "{" ++ dq ++ "text" ++ dq ++ ": 0}".
Definition doc_five : string := "{" ++ dq ++ "text" ++ dq ++ ": 5}".
Definition doc_no_text : string := "{}".
Definition doc_array : string := "[]".

Definition loads (b : list Byte.byte) : result pyval :=
  let s := String.string_of_list_byte b in
  if String.eqb s doc_cat then Ok (PDict {[ "text" := PStr "cat" ]})
  else if String.eqb s doc_empty then Ok (PDict {[ "text" := PStr "" ]})
  else if String.eqb s doc_zero then Ok (PDict {[ "text" := PInt 0 ]})
  else if String.eqb s doc_five then Ok (PDict {[ "text" := PInt 5 ]})
  else if String.eqb s doc_no_text then Ok (PDict ∅)
  else if String.eqb s doc_array then Ok (PList [])
  else Raise (LibraryError "json" "JSONDecodeError").

Definition str (v : pyval) : string :=
  match v with
  | PStr s => s
  | _ => "<object>"
  end.

(** An ASCII standard output: a text with a byte above 127 is refused. *)
Definition write (s : string) : result unit :=
  if forallb (fun c => Nat.ltb (Ascii.nat_of_ascii c) 128)
             (String.list_ascii_of_string s)
  then Ok tt
  else Raise (LibraryError "codecs" "UnicodeEncodeError").

Definition png_signature : list Byte.byte :=
  [Byte.x89; Byte.x50; Byte.x4e; Byte.x47].

Definition open (b : list Byte.byte) : result (list Byte.byte) :=
  if String.eqb (String.string_of_list_byte (take 4 b))
                (String.string_of_list_byte png_signature)
  then Ok b
  else Raise (LibraryError "PIL" "UnidentifiedImageError").

Definition is_str (v : pyval) : bool :=
  match v with PStr _ => true | _ => false end.

Definition tokens (v : pyval) : nat :=
  match v with PStr s => String.length s | _ => 0 end.

Definition tokenize (p : unit) (xs : list pyval) : result (list nat) * unit :=
  if forallb is_str xs then (Ok (map tokens xs), p)
  else (Raise (LibraryError "transformers" "ValueError"), p).

Definition pixels (p : unit) (img : list Byte.byte) : result (list nat) * unit :=
  if Nat.ltb (length img) 8
  then (Raise (LibraryError "PIL" "OSError"), p)
  else (Ok [length img], p).

Definition row (n : nat) : list float :=
  [PrimFloat.of_uint63 (Uint63.of_Z (Z.of_nat n)); 0.5%float].

Definition features (m : nat) (grad : bool) (i : list nat)
  : result tensor * nat :=
  (Ok (map row i), if grad then S m else m).

Definition lib : Library :=
  {| Image := list Byte.byte;
     Inputs := list nat;
     Model := nat;
     Processor := unit;
     model_from_pretrained := fun _ => 0;
     processor_from_pretrained := fun _ => tt;
     json_loads := loads;
     py_str := str;
     stdout_write := write;
     image_open := open;
     processor_text := tokenize;
     processor_images := pixels;
     get_text_features := features;
     get_image_features := features |}.

Definition post (doc : string) : Request := {| body := bytes_of doc |}.

Definition upload_png : UploadFile :=
  {| content := png_signature ++ [Byte.x0d; Byte.x0a; Byte.x1a; Byte.x0a] |}.

Definition upload_text : UploadFile := {| content := bytes_of "not an image" |}.

Definition w0 : World lib := startup.

End Toy.

(** ** A second instance

    The first instance with two changes: the body decoder knows four
    more documents, and the encoder refuses an input of more than 77
    tokens, as an encoder with 77 position embeddings does when the
    processor is not asked to truncate. *)
Module Bounded.

Definition doc_cat_lang : string :=
  "{" ++ Toy.dq ++ "text" ++ Toy.dq ++ ": " ++ Toy.dq ++ "cat" ++ Toy.dq
  ++ ", " ++ Toy.dq ++ "lang" ++ Toy.dq ++ ": " ++ Toy.dq ++ "en" ++ Toy.dq
  ++ "}".

Definition doc_null : string :=
  "{" ++ Toy.dq ++ "text" ++ Toy.dq ++ ": null}".

Definition long_text : string := Nat.iter 100 (String (Ascii.ascii_of_nat 97)) EmptyString.

Definition doc_long : string :=
  "{" ++ Toy.dq ++ "text" ++ Toy.dq ++ ": " ++ Toy.dq ++ long_text ++ Toy.dq
  ++ "}".

(** ["caf"] followed by the two bytes of U+00E9. *)
Definition cafe : string :=
  "caf" ++ String (Ascii.ascii_of_nat 195)
             (String (Ascii.ascii_of_nat 169) EmptyString).

Definition doc_cafe : string :=
  "{" ++ Toy.dq ++ "text" ++ Toy.dq ++ ": " ++ Toy.dq ++ cafe ++ Toy.dq
  ++ "}".

Definition loads (b : list Byte.byte) : result pyval :=
  let s := String.string_of_list_byte b in
  if String.eqb s doc_cafe then Ok (PDict {[ "text" := PStr cafe ]}) else
  if String.eqb s doc_cat_lang
  then Ok (PDict (<[ "lang" := PStr "en" ]> {[ "text" := PStr "cat" ]}))
  else if String.eqb s doc_null then Ok (PDict {[ "text" := PNone ]})
  else if String.eqb s doc_long then Ok (PDict {[ "text" := PStr long_text ]})
  else Toy.loads b.

Definition max_position_embeddings : nat := 77.

Definition features (m : nat) (grad : bool) (i : list nat)
  : result tensor * nat :=
  if forallb (fun n => Nat.leb n max_position_embeddings) i
  then Toy.features m grad i
  else (Raise (LibraryError "torch" "RuntimeError"), m).

Definition lib : Library :=
  {| Image := list Byte.byte;
     Inputs := list nat;
     Model := nat;
     Processor := unit;
     model_from_pretrained := fun _ => 0;
     processor_from_pretrained := fun _ => tt;
     json_loads := loads;
     py_str := Toy.str;
     stdout_write := Toy.write;
     image_open := Toy.open;
     processor_text := Toy.tokenize;
     processor_images := Toy.pixels;
     get_text_features := features;
     get_image_features := features |}.

Definition upload_large : UploadFile :=
  {| content := Toy.png_signature ++ replicate 100 Byte.x00 |}.

Definition w0 : World lib := startup.

End Bounded.

(** ** A third instance

    A library with two checkpoints of different widths: the model
    object is the width of the checkpoint it was loaded from, and the
    encoder returns rows of that width. *)
Module Widths.

Definition from_pretrained (name : string) : nat :=
  if String.eqb name "openai/clip-vit-large-patch14" then 3 else 2.

Definition features (m : nat) (grad : bool) (i : list nat)
  : result tensor * nat :=
  (Ok (map (fun _ => replicate m 0.5%float) i), m).

Definition lib : Library :=
  {| Image := list Byte.byte;
     Inputs := list nat;
     Model := nat;
     Processor := unit;
     model_from_pretrained := from_pretrained;
     processor_from_pretrained := fun _ => tt;
     json_loads := Toy.loads;
     py_str := Toy.str;
     stdout_write := Toy.write;
     image_open := Toy.open;
     processor_text := Toy.tokenize;
     processor_images := Toy.pixels;
     get_text_features := features;
     get_image_features := features |}.

Definition w0 : World lib := startup.

(** The world had the other checkpoint been loaded. *)
Definition w_large : World lib :=
  mkWorld (L:=lib) (from_pretrained "openai/clip-vit-large-patch14") tt
          true [].

End Widths.

(** ** Basic facts *)

Lemma has_key_singleton (k j : string) (v : pyval) :
  has_key k (PDict {[ j := v ]}) = bool_decide (j = k).
Proof.
  unfold has_key. apply bool_decide_ext.
  destruct (decide (j = k)) as [->|Hne].
  - rewrite lookup_singleton_eq. split; eauto.
  - rewrite lookup_singleton_ne by done.
    split; [intros [? ?]; discriminate | done].
Qed.

Lemma error_payload_not_embedding (e : pyval) :
  error_payload <> embedding_payload e.
Proof.
  intros H. assert (K : has_key "error" error_payload
                        = has_key "error" (embedding_payload e))
    by (rewrite H; reflexivity).
  unfold error_payload, embedding_payload in K.
  rewrite !has_key_singleton in K. discriminate K.
Qed.

Lemma nested_floats_tolist (t : tensor) : nested_floats (tolist t) = true.
Proof.
  unfold tolist, nested_floats. apply forallb_forall.
  intros r Hr. apply in_map_iff in Hr as [x [<- _]].
  unfold row_tolist, float_list. apply forallb_forall.
  intros y Hy. apply in_map_iff in Hy as [z [<- _]]. reflexivity.
Qed.

Lemma flat_numbers_tolist (t : tensor) :
  flat_numbers (tolist t) = match t with [] => true | _ :: _ => false end.
Proof. destruct t; reflexivity. Qed.

Lemma embedding_dims_tolist (t : tensor) :
  embedding_dims (tolist t) = map (fun r => Some (length r)) t.
Proof.
  unfold tolist, embedding_dims. rewrite map_map.
  apply map_ext. intros r. unfold row_tolist, py_len.
  now rewrite length_map.
Qed.

Lemma py_len_tolist (t : tensor) : py_len (tolist t) = Some (length t).
Proof. unfold tolist, py_len. now rewrite length_map. Qed.

Section Handlers.
Context {L : Library}.

(** *** How the wrappers run *)

Lemma get_text_embedding_run (text : pyval) (w : World L) :
  get_text_embedding text w =
  match processor_text L (processor w) [text] with
  | (Ok i, p) =>
      match get_text_features L (model w) false i with
      | (Ok t, m) =>
          (Ok (tolist t), mkWorld m p (grad_enabled w) (stdout w))
      | (Raise e, m) =>
          (Raise e, mkWorld m p (grad_enabled w) (stdout w))
      end
  | (Raise e, p) =>
      (Raise e, mkWorld (model w) p (grad_enabled w) (stdout w))
  end.
Proof.
  unfold get_text_embedding, bind, call_processor_text, with_no_grad,
    call_get_text_features, set_grad_enabled, ret.
  destruct (processor_text L (processor w) [text]) as [[i|e] p]; simpl;
    [|reflexivity].
  destruct (get_text_features L (model w) false i) as [[t|e] m];
    reflexivity.
Qed.

Lemma get_image_embedding_run (file : UploadFile) (w : World L) :
  get_image_embedding file w =
  match image_open L (content file) with
  | Ok img =>
      match processor_images L (processor w) img with
      | (Ok i, p) =>
          match get_image_features L (model w) false i with
          | (Ok t, m) =>
              (Ok (tolist t), mkWorld m p (grad_enabled w) (stdout w))
          | (Raise e, m) =>
              (Raise e, mkWorld m p (grad_enabled w) (stdout w))
          end
      | (Raise e, p) =>
          (Raise e, mkWorld (model w) p (grad_enabled w) (stdout w))
      end
  | Raise e => (Raise e, w)
  end.
Proof.
  unfold get_image_embedding, bind, file_read, lift, call_processor_images,
    with_no_grad, call_get_image_features, set_grad_enabled, ret.
  destruct (image_open L (content file)) as [img|e]; [|reflexivity].
  destruct (processor_images L (processor w) img) as [[i|e] p]; simpl;
    [|reflexivity].
  destruct (get_image_features L (model w) false i) as [[t|e] m];
    reflexivity.
Qed.

Lemma embed_text_run (request : Request) (w : World L) :
  embed_text request w =
  match json_loads L (body request) with
  | Ok (PDict d) =>
      let text := default PNone (d !! "text") in
      if truthy text then
        match stdout_write L (received_line L text) with
        | Ok _ =>
            match get_text_embedding text (after_print text w) with
            | (Ok e, w') => (Ok (embedding_payload e), w')
            | (Raise x, w') => (Raise x, w')
            end
        | Raise x => (Raise x, w)
        end
      else (Ok error_payload, w)
  | Ok _ => (Raise (AttributeError "object has no attribute 'get'"), w)
  | Raise e => (Raise e, w)
  end.
Proof.
  unfold embed_text, bind, request_json, lift.
  destruct (json_loads L (body request)) as [b|e]; [|reflexivity].
  destruct b; try reflexivity.
  unfold py_get, ret. cbn zeta.
  destruct (truthy (default PNone (d !! "text"))); [|reflexivity].
  cbn [negb]. unfold print, received_line.
  destruct (stdout_write L _) as [[]|x]; reflexivity.
Qed.

(** A body that parses to anything but an object stops the handler at
    [body.get]. *)
Lemma embed_text_non_object_raises
    (request : Request) (w : World L) (b : pyval) :
  json_loads L (body request) = Ok b ->
  (forall d, b <> PDict d) ->
  embed_text request w
  = (Raise (AttributeError "object has no attribute 'get'"), w).
Proof.
  intros Hjson Hb. rewrite embed_text_run, Hjson.
  destruct b; try reflexivity. now destruct (Hb d).
Qed.

(** *** The wrappers and the world *)

Lemma get_text_embedding_frame (text : pyval) (w : World L) :
  processor_readonly L ->
  no_grad_forward_readonly L ->
  (get_text_embedding text w).2 = w.
Proof.
  intros [Hpt _] [Hft _]. destruct w as [m p g out].
  rewrite get_text_embedding_run. simpl.
  pose proof (Hpt p [text]) as Hp.
  destruct (processor_text L p [text]) as [[i|e] p0]; simpl in Hp; subst p0;
    [|reflexivity].
  pose proof (Hft m i) as Hm.
  destruct (get_text_features L m false i) as [[t|e] m0]; simpl in Hm;
    subst m0; reflexivity.
Qed.

Lemma get_image_embedding_frame (file : UploadFile) (w : World L) :
  processor_readonly L ->
  no_grad_forward_readonly L ->
  (get_image_embedding file w).2 = w.
Proof.
  intros [_ Hpi] [_ Hfi]. destruct w as [m p g out].
  rewrite get_image_embedding_run. simpl.
  destruct (image_open L (content file)) as [img|e]; [|reflexivity].
  pose proof (Hpi p img) as Hp.
  destruct (processor_images L p img) as [[i|e] p0]; simpl in Hp; subst p0;
    [|reflexivity].
  pose proof (Hfi m i) as Hm.
  destruct (get_image_features L m false i) as [[t|e] m0]; simpl in Hm;
    subst m0; reflexivity.
Qed.

(** A second call made right after a first one sees the world the first
    one saw, and returns what it returned. *)
Lemma get_text_embedding_twice (text : pyval) (w : World L) :
  processor_readonly L ->
  no_grad_forward_readonly L ->
  (get_text_embedding text (get_text_embedding text w).2).1
  = (get_text_embedding text w).1.
Proof.
  intros Hp Hf. now rewrite (get_text_embedding_frame text w Hp Hf).
Qed.

End Handlers.

(** *** Truth values *)

Lemma truthy_nonempty_str (s : string) : s <> "" -> truthy (PStr s) = true.
Proof.
  intros Hs. simpl. apply negb_true_iff. now apply String.eqb_neq.
Qed.


Lemma dims_of_rows (dim : nat) (t : tensor) :
  Forall (fun r => length r = dim) t ->
  map (fun r => Some (length r)) t = replicate (length t) (Some dim).
Proof.
  induction 1 as [|r t Hr _ IH]; simpl; [reflexivity|].
  now rewrite Hr, IH.
Qed.

(** ** The endpoints *)

Section Claims.
Context {L : Library}.

(** C1, as amended.  For a request whose JSON body carries a non-empty
    string under ["text"], on which the line is printed and the
    processor and the encoder return, the encoder's tensor having the
    one row of a batch of one, the response is the object
    [{"embedding": [row]}]: the ["embedding"] value is a list holding
    exactly one inner list, every element of which is a float.  Its one
    element is a list and no number, so the value is not a flat
    sequence of numbers. *)
Theorem embed_text_embedding_rows
    (request : Request) (w : World L) (d : gmap string pyval) (s : string)
    (i : Inputs L) (p' : Processor L) (t : tensor) (m' : Model L) :
  json_loads L (body request) = Ok (PDict d) ->
  d !! "text" = Some (PStr s) ->
  s <> "" ->
  stdout_write L (received_line L (PStr s)) = Ok tt ->
  processor_text L (processor w) [PStr s] = (Ok i, p') ->
  get_text_features L (model w) false i = (Ok t, m') ->
  length t = 1 ->
  exists row : list float,
    t = [row] /\
    (embed_text request w).1
    = Ok (embedding_payload (PList [PList (map PFloat row)])) /\
    forallb is_float (map PFloat row) = true /\
    is_number (PList (map PFloat row)) = false /\
    flat_numbers (PList [PList (map PFloat row)]) = false.
Proof.
  intros Hjson Htext Hs Hprint Hp Hm Hlen.
  destruct t as [|row [|row' t]]; try discriminate Hlen.
  exists row. split; [reflexivity|].
  rewrite embed_text_run, Hjson. cbn zeta.
  rewrite Htext. simpl default.
  rewrite (truthy_nonempty_str s Hs), Hprint, get_text_embedding_run.
  simpl processor. simpl model. rewrite Hp, Hm.
  split; [reflexivity|]. split; [|split; reflexivity].
  apply forallb_forall. intros y Hy.
  apply in_map_iff in Hy as [z [<- _]]. reflexivity.
Qed.

(** C2, as amended.  For a JSON-object body, [embed_text] returns the
    error payload exactly when the value under ["text"] is absent or
    falsy; a missing key and the empty string are two such cases.  When
    the value is a non-empty string the handler never returns the error
    payload, and it returns [{"embedding": e}] whenever its line is
    printed and [get_text_embedding] returns [e]. *)
Theorem embed_text_error_iff_falsy
    (request : Request) (w : World L) (d : gmap string pyval) :
  json_loads L (body request) = Ok (PDict d) ->
  let text := default PNone (d !! "text") in
  ((embed_text request w).1 = Ok error_payload <-> truthy text = false) /\
  (text_missing_or_empty d -> (embed_text request w).1 = Ok error_payload) /\
  (forall s, d !! "text" = Some (PStr s) -> s <> "" ->
     (embed_text request w).1 <> Ok error_payload /\
     (stdout_write L (received_line L (PStr s)) = Ok tt ->
      forall e,
        (get_text_embedding (PStr s) (after_print (PStr s) w)).1 = Ok e ->
        (embed_text request w).1 = Ok (embedding_payload e))).
Proof.
  intros Hjson text.
  assert (Hiff : (embed_text request w).1 = Ok error_payload
                 <-> truthy text = false).
  { rewrite embed_text_run, Hjson. cbn zeta. fold text.
    destruct (truthy text); [|now split].
    split; [|discriminate].
    destruct (stdout_write L (received_line L text)) as [u|x];
      [|discriminate].
    destruct (get_text_embedding text (after_print text w)) as [[e|x] w'];
      simpl; intros H; [|discriminate].
    exfalso. apply (error_payload_not_embedding e). congruence. }
  split; [exact Hiff|]. split.
  - intros Hme. apply Hiff. unfold text.
    destruct Hme as [-> | ->]; reflexivity.
  - intros s Hs Hne. split.
    + intros H. apply Hiff in H. unfold text in H. rewrite Hs in H.
      simpl default in H. rewrite (truthy_nonempty_str s Hne) in H.
      discriminate.
    + intros Hprint e He. rewrite embed_text_run, Hjson. cbn zeta.
      rewrite Hs. simpl default.
      rewrite (truthy_nonempty_str s Hne), Hprint.
      destruct (get_text_embedding (PStr s) (after_print (PStr s) w))
        as [[e'|x] w']; simpl in *; congruence.
Qed.

(** C3.  Fix the model and the processor that the process holds.  If
    the text encoder of that model has its documented output shape (one
    row of the model's width per input), any two texts on which
    [get_text_embedding] returns give lists of the same length and of
    the same row lengths; and if its image encoder has that shape, so
    do any two uploads on which [get_image_embedding] returns. *)
Theorem embedding_length_constant
    (m : Model L) (p : Processor L) (dim_text dim_image : nat) :
  (text_shape_of L m p dim_text ->
   forall t1 t2 (w1 w2 : World L) v1 v2,
     model w1 = m -> processor w1 = p ->
     model w2 = m -> processor w2 = p ->
     (get_text_embedding t1 w1).1 = Ok v1 ->
     (get_text_embedding t2 w2).1 = Ok v2 ->
     py_len v1 = py_len v2 /\
     embedding_dims v1 = embedding_dims v2) /\
  (image_shape_of L m p dim_image ->
   forall f1 f2 (w1 w2 : World L) v1 v2,
     model w1 = m -> processor w1 = p ->
     model w2 = m -> processor w2 = p ->
     (get_image_embedding f1 w1).1 = Ok v1 ->
     (get_image_embedding f2 w2).1 = Ok v2 ->
     py_len v1 = py_len v2 /\
     embedding_dims v1 = embedding_dims v2).
Proof.
  split.
  - intros Ht.
    assert (Htext : forall t (w : World L) v,
              model w = m -> processor w = p ->
              (get_text_embedding t w).1 = Ok v ->
              py_len v = Some 1 /\ embedding_dims v = [Some dim_text]).
    { intros t w v <- <-. rewrite get_text_embedding_run.
      destruct (processor_text L (processor w) [t]) as [[i|e] p'] eqn:Hp;
        [|discriminate].
      destruct (get_text_features L (model w) false i) as [[x|e] m'] eqn:Hm;
        [|discriminate].
      simpl. intros [= <-].
      destruct (Ht _ _ _ _ _ Hp Hm) as [Hlen Hrows].
      rewrite py_len_tolist, embedding_dims_tolist,
        (dims_of_rows dim_text x Hrows), Hlen. now split. }
    intros t1 t2 w1 w2 v1 v2 Hm1 Hp1 Hm2 Hp2 H1 H2.
    destruct (Htext _ _ _ Hm1 Hp1 H1) as [-> ->].
    destruct (Htext _ _ _ Hm2 Hp2 H2) as [-> ->]. now split.
  - intros Hi.
    assert (Himage : forall f (w : World L) v,
              model w = m -> processor w = p ->
              (get_image_embedding f w).1 = Ok v ->
              py_len v = Some 1 /\ embedding_dims v = [Some dim_image]).
    { intros f w v <- <-. rewrite get_image_embedding_run.
      destruct (image_open L (content f)) as [img|e]; [|discriminate].
      destruct (processor_images L (processor w) img) as [[i|e] p'] eqn:Hp;
        [|discriminate].
      destruct (get_image_features L (model w) false i) as [[x|e] m'] eqn:Hm;
        [|discriminate].
      simpl. intros [= <-].
      destruct (Hi _ _ _ _ _ Hp Hm) as [Hlen Hrows].
      rewrite py_len_tolist, embedding_dims_tolist,
        (dims_of_rows dim_image x Hrows), Hlen. now split. }
    intros f1 f2 w1 w2 v1 v2 Hm1 Hp1 Hm2 Hp2 H1 H2.
    destruct (Himage _ _ _ Hm1 Hp1 H1) as [-> ->].
    destruct (Himage _ _ _ Hm2 Hp2 H2) as [-> ->]. now split.
Qed.


(** C5.  When the uploaded bytes do not decode, be it that
    [Image.open] raises or that the processor raises on the opened
    image, [embed_image] raises that same exception: it returns no
    value, so no object with an ["embedding"] field and no empty
    embedding, and the framework answers with status 500. *)
Theorem embed_image_undecodable_raises
    (file : UploadFile) (w : World L) (e : exn) :
  (image_open L (content file) = Raise e \/
   exists img, image_open L (content file) = Ok img /\
               (processor_images L (processor w) img).1 = Raise e) ->
  (embed_image file w).1 = Raise e /\
  (forall v, (embed_image file w).1 <> Ok v) /\
  response_status (serve embed_image_route file w).1 = 500%Z.
Proof.
  intros H.
  assert (Hraise : (embed_image file w).1 = Raise e).
  { unfold embed_image, bind. rewrite get_image_embedding_run.
    destruct H as [-> | [img [-> Hp]]]; [reflexivity|].
    destruct (processor_images L (processor w) img) as [[i|x] p];
      simpl in Hp; [discriminate|].
    now injection Hp as ->. }
  split; [exact Hraise|]. split.
  - intros v Hv. rewrite Hraise in Hv. discriminate.
  - unfold serve, embed_image_route. cbn [handler status_code].
    destruct (embed_image file w) as [[v|x] w']; simpl in *;
      [discriminate|reflexivity].
Qed.

(** C6.  When the JSON object has no ["text"] key, [embed_text] returns
    the error payload as an ordinary value; the framework sends it with
    status 200, the very status of every response that carries an
    embedding. *)
Theorem embed_text_missing_text_status
    (request : Request) (w : World L) (d : gmap string pyval) :
  json_loads L (body request) = Ok (PDict d) ->
  d !! "text" = None ->
  embed_text request w = (Ok error_payload, w) /\
  serve embed_text_route request w = (JSONResponse 200 error_payload, w) /\
  (forall (request' : Request) (w' w'' : World L) e,
     embed_text request' w' = (Ok (embedding_payload e), w'') ->
     response_status (serve embed_text_route request' w').1
     = response_status (serve embed_text_route request w).1).
Proof.
  intros Hjson Hnone.
  assert (Hrun : embed_text request w = (Ok error_payload, w)).
  { rewrite embed_text_run, Hjson. cbn zeta. now rewrite Hnone. }
  split; [exact Hrun|].
  assert (Hserve : serve embed_text_route request w
                   = (JSONResponse 200 error_payload, w)).
  { unfold serve, embed_text_route. cbn [handler status_code].
    now rewrite Hrun. }
  split; [exact Hserve|].
  intros request' w' w'' e Hok. rewrite Hserve.
  unfold serve, embed_text_route. cbn [handler status_code].
  now rewrite Hok.
Qed.

(** C7.  Provided the libraries' own calls do not write to the objects
    they are applied to (preprocessing, and a forward pass made with
    grad mode off), neither wrapper changes the world: model,
    processor, grad mode and output are as before the call.  The
    forward pass runs with grad mode off whatever mode is in force at
    entry, so the outcome does not depend on that mode. *)
Theorem embeddings_leave_world_unchanged (w : World L) :
  processor_readonly L ->
  no_grad_forward_readonly L ->
  (forall text, (get_text_embedding text w).2 = w) /\
  (forall file, (get_image_embedding file w).2 = w) /\
  (forall b text,
     (get_text_embedding text (set_grad_enabled b w)).1
     = (get_text_embedding text w).1) /\
  (forall b file,
     (get_image_embedding file (set_grad_enabled b w)).1
     = (get_image_embedding file w).1).
Proof.
  intros Hp Hf.
  split; [intros text; now apply get_text_embedding_frame|].
  split; [intros file; now apply get_image_embedding_frame|].
  destruct w as [m p g out]. split.
  - intros b text. rewrite !get_text_embedding_run. simpl.
    destruct (processor_text L p [text]) as [[i|e] p0]; [|reflexivity].
    destruct (get_text_features L m false i) as [[t|e] m0]; reflexivity.
  - intros b file. rewrite !get_image_embedding_run. simpl.
    destruct (image_open L (content file)) as [img|e]; [|reflexivity].
    destruct (processor_images L p img) as [[i|e] p0]; [|reflexivity].
    destruct (get_image_features L m false i) as [[t|e] m0]; reflexivity.
Qed.


(** C9.  When the body of the request does not parse as JSON, the
    exception of [request.json()] leaves [embed_text] as it is: the
    handler returns no value, neither payload, and the world is
    untouched (nothing printed, no model call). *)
Theorem embed_text_unparseable_raises
    (request : Request) (w : World L) (e : exn) :
  json_loads L (body request) = Raise e ->
  embed_text request w = (Raise e, w) /\
  (forall v, (embed_text request w).1 <> Ok v).
Proof.
  intros Hjson.
  assert (Hrun : embed_text request w = (Raise e, w))
    by now rewrite embed_text_run, Hjson.
  split; [exact Hrun|]. intros v. now rewrite Hrun.
Qed.

(** C10.  Every value [embed_text] returns is a dict with exactly one
    of the keys ["embedding"] and ["error"]. *)
Theorem embed_text_payload_keys
    (request : Request) (w w' : World L) (v : pyval) :
  embed_text request w = (Ok v, w') ->
  (exists d, v = PDict d) /\
  xorb (has_key "embedding" v) (has_key "error" v) = true.
Proof.
  rewrite embed_text_run.
  destruct (json_loads L (body request)) as [b|e]; [|discriminate].
  destruct b as [| | | | | |d]; try discriminate. cbn zeta.
  destruct (truthy (default PNone (d !! "text"))).
  - destruct (stdout_write L _) as [u|x]; [|discriminate].
    destruct (get_text_embedding _ _) as [[e|x] w1]; [|discriminate].
    intros [= <- _]. split; [unfold embedding_payload; eauto|].
    unfold embedding_payload. now rewrite !has_key_singleton.
  - intros [= <- _]. split; [unfold error_payload; eauto|].
    unfold error_payload. now rewrite !has_key_singleton.
Qed.

End Claims.

(** ** The small instance meets the contracts *)

Lemma widths_text_shape (m : nat) :
  text_shape_of Widths.lib m tt m.
Proof.
  intros xs i p' t m' Hp Hm. simpl in Hp, Hm.
  unfold Toy.tokenize in Hp. unfold Widths.features in Hm.
  destruct (forallb Toy.is_str xs); [|discriminate].
  injection Hp as <- _. injection Hm as <- _.
  rewrite !length_map. split; [reflexivity|].
  apply Forall_forall. intros r Hr.
  apply list_elem_of_In, in_map_iff in Hr as [n [<- _]].
  apply length_replicate.
Qed.

Lemma widths_image_shape (m : nat) :
  image_shape_of Widths.lib m tt m.
Proof.
  intros img i p' t m' Hp Hm. simpl in Hp, Hm.
  unfold Toy.pixels in Hp. unfold Widths.features in Hm.
  destruct (Nat.ltb (length img) 8); [discriminate|].
  injection Hp as <- _. injection Hm as <- _.
  split; [reflexivity|]. constructor; [apply length_replicate|constructor].
Qed.

(** The two checkpoints of the third instance differ in width, so no
    one width fits every model of that library. *)
Lemma widths_differ :
  (get_text_embedding (L:=Widths.lib) (PStr "cat") Widths.w0).1
  = Ok (PList [PList [PFloat 0.5; PFloat 0.5]]) /\
  (get_text_embedding (L:=Widths.lib) (PStr "cat") Widths.w_large).1
  = Ok (PList [PList [PFloat 0.5; PFloat 0.5; PFloat 0.5]]).
Proof. split; reflexivity. Qed.

Lemma toy_processor_readonly : processor_readonly Toy.lib.
Proof.
  split.
  - intros p xs. simpl. unfold Toy.tokenize.
    now destruct (forallb Toy.is_str xs).
  - intros p img. simpl. unfold Toy.pixels.
    now destruct (Nat.ltb (length img) 8).
Qed.

Lemma toy_no_grad_forward_readonly : no_grad_forward_readonly Toy.lib.
Proof. split; intros m i; reflexivity. Qed.

(** With grad mode on, the instance's forward pass does write to the
    model: the wrappers' [no_grad] is what keeps it untouched. *)
Lemma toy_grad_forward_writes :
  (get_text_features Toy.lib 0 true [3]).2 = 1.
Proof. reflexivity. Qed.

Lemma toy_loads_cat :
  json_loads Toy.lib (body (Toy.post Toy.doc_cat))
  = Ok (PDict {[ "text" := PStr "cat" ]}).
Proof. vm_compute. reflexivity. Qed.

Lemma toy_loads_zero :
  json_loads Toy.lib (body (Toy.post Toy.doc_zero))
  = Ok (PDict {[ "text" := PInt 0 ]}).
Proof. vm_compute. reflexivity. Qed.


Lemma toy_loads_no_text :
  json_loads Toy.lib (body (Toy.post Toy.doc_no_text)) = Ok (PDict ∅).
Proof. vm_compute. reflexivity. Qed.


Lemma toy_loads_garbage :
  json_loads Toy.lib (body (Toy.post "{text"))
  = Raise (LibraryError "json" "JSONDecodeError").
Proof. vm_compute. reflexivity. Qed.

(** ** The theorems at concrete requests *)

Lemma embed_text_embedding_rows_witness :
  exists row : list float,
    [Toy.row 3] = [row] /\
    (embed_text (L:=Toy.lib) (Toy.post Toy.doc_cat) Toy.w0).1
    = Ok (embedding_payload (PList [PList (map PFloat row)])) /\
    forallb is_float (map PFloat row) = true /\
    is_number (PList (map PFloat row)) = false /\
    flat_numbers (PList [PList (map PFloat row)]) = false.
Proof.
  apply (embed_text_embedding_rows (L:=Toy.lib)
           (Toy.post Toy.doc_cat) Toy.w0 {[ "text" := PStr "cat" ]} "cat"
           [3] tt [Toy.row 3] 0).
  - exact toy_loads_cat.
  - apply lookup_singleton_eq.
  - discriminate.
  - reflexivity.
  - reflexivity.
  - reflexivity.
  - reflexivity.
Defined.

(** C1, counterexample.  On the body [{"text": "cat"}] the handler
    returns [{"embedding": [[3.0, 0.5]]}]: the one element of the
    ["embedding"] value is a list, not a number. *)
Lemma embed_text_cat_not_flat :
  json_loads Toy.lib (body (Toy.post Toy.doc_cat))
  = Ok (PDict {[ "text" := PStr "cat" ]}) /\
  (embed_text (L:=Toy.lib) (Toy.post Toy.doc_cat) Toy.w0).1
  = Ok (embedding_payload (PList [PList [PFloat 3; PFloat 0.5]])) /\
  is_number (PList [PFloat 3; PFloat 0.5]) = false /\
  flat_numbers (PList [PList [PFloat 3; PFloat 0.5]]) = false.
Proof.
  split; [exact toy_loads_cat|].
  split; [|split; reflexivity].
  rewrite embed_text_run, toy_loads_cat. cbn zeta.
  rewrite lookup_singleton_eq. reflexivity.
Qed.

Lemma embed_text_error_iff_falsy_witness :
  text_missing_or_empty ∅ /\
  (embed_text (L:=Toy.lib) (Toy.post Toy.doc_no_text) Toy.w0).1
  = Ok error_payload.
Proof.
  assert (Hme : text_missing_or_empty ∅) by (left; apply lookup_empty).
  split; [exact Hme|].
  exact (proj1 (proj2 (embed_text_error_iff_falsy (L:=Toy.lib)
                         (Toy.post Toy.doc_no_text) Toy.w0 ∅
                         toy_loads_no_text)) Hme).
Defined.

(** C2, counterexample.  On the body [{"text": 0}] the ["text"] field is
    there and is not the empty string, and the handler returns the
    error payload all the same. *)
Lemma embed_text_zero_is_error :
  json_loads Toy.lib (body (Toy.post Toy.doc_zero))
  = Ok (PDict {[ "text" := PInt 0 ]}) /\
  ~ text_missing_or_empty {[ "text" := PInt 0 ]} /\
  (embed_text (L:=Toy.lib) (Toy.post Toy.doc_zero) Toy.w0).1
  = Ok error_payload.
Proof.
  split; [exact toy_loads_zero|]. split.
  - intros [H|H]; rewrite lookup_singleton_eq in H; discriminate.
  - rewrite embed_text_run, toy_loads_zero. cbn zeta.
    rewrite lookup_singleton_eq. reflexivity.
Qed.

Lemma embedding_length_constant_witness :
  model Widths.w0 = 2 /\
  (py_len (PList [PList [PFloat 0.5; PFloat 0.5]])
   = py_len (PList [PList [PFloat 0.5; PFloat 0.5]]) /\
   embedding_dims (PList [PList [PFloat 0.5; PFloat 0.5]])
   = embedding_dims (PList [PList [PFloat 0.5; PFloat 0.5]])).
Proof.
  split; [reflexivity|].
  apply (proj1 (embedding_length_constant (L:=Widths.lib) 2 tt 2 2)
           (widths_text_shape 2)
           (PStr "cat") (PStr "airplane") Widths.w0 Widths.w0);
    reflexivity.
Defined.


Lemma embed_image_undecodable_raises_witness :
  (embed_image (L:=Toy.lib) Toy.upload_text Toy.w0).1
  = Raise (LibraryError "PIL" "UnidentifiedImageError") /\
  (forall v, (embed_image (L:=Toy.lib) Toy.upload_text Toy.w0).1 <> Ok v) /\
  response_status (serve (L:=Toy.lib) embed_image_route Toy.upload_text
                     Toy.w0).1 = 500%Z.
Proof.
  apply (embed_image_undecodable_raises (L:=Toy.lib) Toy.upload_text Toy.w0).
  left. vm_compute. reflexivity.
Defined.

Lemma embed_text_missing_text_status_witness :
  serve (L:=Toy.lib) embed_text_route (Toy.post Toy.doc_no_text) Toy.w0
  = (JSONResponse 200 error_payload, Toy.w0) /\
  response_status
    (serve (L:=Toy.lib) embed_text_route (Toy.post Toy.doc_cat) Toy.w0).1
  = response_status
      (serve (L:=Toy.lib) embed_text_route (Toy.post Toy.doc_no_text)
         Toy.w0).1.
Proof.
  destruct (embed_text_missing_text_status (L:=Toy.lib)
              (Toy.post Toy.doc_no_text) Toy.w0 ∅ toy_loads_no_text
              (lookup_empty "text")) as [_ [Hserve Hsame]].
  split; [exact Hserve|].
  apply (Hsame (Toy.post Toy.doc_cat) Toy.w0
           (mkWorld (L:=Toy.lib) 0 tt true ["Received text: cat"])
           (PList [PList [PFloat 3; PFloat 0.5]])).
  rewrite embed_text_run, toy_loads_cat. cbn zeta.
  rewrite lookup_singleton_eq. reflexivity.
Defined.

Lemma embeddings_leave_world_unchanged_witness :
  grad_enabled Toy.w0 = true /\
  (get_text_embedding (L:=Toy.lib) (PStr "cat") Toy.w0).2 = Toy.w0 /\
  (get_image_embedding (L:=Toy.lib) Toy.upload_png Toy.w0).2 = Toy.w0.
Proof.
  destruct (embeddings_leave_world_unchanged (L:=Toy.lib) Toy.w0
              toy_processor_readonly toy_no_grad_forward_readonly)
    as [Htext [Himage _]].
  split; [reflexivity|]. split; [apply Htext | apply Himage].
Defined.



Lemma embed_text_unparseable_raises_witness :
  embed_text (L:=Toy.lib) (Toy.post "{text") Toy.w0
  = (Raise (LibraryError "json" "JSONDecodeError"), Toy.w0) /\
  (forall v, (embed_text (L:=Toy.lib) (Toy.post "{text") Toy.w0).1 <> Ok v).
Proof.
  apply (embed_text_unparseable_raises (L:=Toy.lib) (Toy.post "{text")
           Toy.w0 _ toy_loads_garbage).
Defined.

Lemma embed_text_payload_keys_witness :
  (exists d, embedding_payload (PList [PList [PFloat 3; PFloat 0.5]])
             = PDict d) /\
  xorb (has_key "embedding"
          (embedding_payload (PList [PList [PFloat 3; PFloat 0.5]])))
       (has_key "error"
          (embedding_payload (PList [PList [PFloat 3; PFloat 0.5]])))
  = true.
Proof.
  apply (embed_text_payload_keys (L:=Toy.lib) (Toy.post Toy.doc_cat)
           Toy.w0 (mkWorld (L:=Toy.lib) 0 tt true ["Received text: cat"])).
  rewrite embed_text_run, toy_loads_cat. cbn zeta.
  rewrite lookup_singleton_eq. reflexivity.
Defined.

(** ** More on the handlers *)

Lemma embedding_payload_inj (e e' : pyval) :
  embedding_payload e = embedding_payload e' -> e = e'.
Proof.
  intros H.
  apply (f_equal (fun v => match v with
                           | PDict d => d !! "embedding"
                           | _ => None
                           end)) in H.
  unfold embedding_payload in H.
  rewrite !lookup_singleton_eq in H. congruence.
Qed.

Section Extras.
Context {L : Library}.

Lemma embed_image_run (file : UploadFile) (w : World L) :
  embed_image file w =
  match get_image_embedding file w with
  | (Ok e, w') => (Ok (embedding_payload e), w')
  | (Raise x, w') => (Raise x, w')
  end.
Proof.
  unfold embed_image, bind, ret.
  destruct (get_image_embedding file w) as [[e|x] w']; reflexivity.
Qed.

(** X1.  [embed_image] returns a value exactly when [Image.open], the
    processor and the encoder all return, and the value is then the
    object [{"embedding": e}] with [e] the encoder's tensor as a nested
    list of floats. *)
Theorem embed_image_returns_iff
    (file : UploadFile) (w : World L) (v : pyval) :
  (embed_image file w).1 = Ok v <->
  exists img i p' t m',
    image_open L (content file) = Ok img /\
    processor_images L (processor w) img = (Ok i, p') /\
    get_image_features L (model w) false i = (Ok t, m') /\
    v = embedding_payload (tolist t) /\
    nested_floats (tolist t) = true.
Proof.
  rewrite embed_image_run, get_image_embedding_run. split.
  - destruct (image_open L (content file)) as [img|x]; [|discriminate].
    destruct (processor_images L (processor w) img) as [[i|x] p'] eqn:Hp;
      [|discriminate].
    destruct (get_image_features L (model w) false i) as [[t|x] m'] eqn:Hm;
      [|discriminate].
    cbn [fst]. intros [= <-]. exists img, i, p', t, m'.
    repeat (split; [reflexivity || assumption|]). apply nested_floats_tolist.
  - intros (img & i & p' & t & m' & -> & -> & -> & -> & _). reflexivity.
Qed.

(** X2.  [embed_text] returns an object with an embedding exactly when
    the body parses to a JSON object, the value under ["text"] is
    truthy, the handler's line is printed, and the processor (on the
    one-element batch of that value) and the encoder both return; the
    embedding is then the encoder's tensor as a nested list. *)
Theorem embed_text_returns_embedding_iff
    (request : Request) (w : World L) (e : pyval) :
  (embed_text request w).1 = Ok (embedding_payload e) <->
  exists d i p' t m',
    json_loads L (body request) = Ok (PDict d) /\
    truthy (default PNone (d !! "text")) = true /\
    stdout_write L (received_line L (default PNone (d !! "text"))) = Ok tt /\
    processor_text L (processor w) [default PNone (d !! "text")]
    = (Ok i, p') /\
    get_text_features L (model w) false i = (Ok t, m') /\
    e = tolist t.
Proof.
  rewrite embed_text_run. split.
  - destruct (json_loads L (body request)) as [b|x]; [|discriminate].
    destruct b as [| | | | | |d]; try discriminate. cbn zeta.
    destruct (truthy (default PNone (d !! "text"))) eqn:Htruthy.
    + destruct (stdout_write L _) as [[]|x] eqn:Hprint;
        [|discriminate].
      rewrite get_text_embedding_run. cbn [processor model after_print].
      destruct (processor_text L (processor w) [default PNone (d !! "text")])
        as [[i|x] p'] eqn:Hp; [|discriminate].
      destruct (get_text_features L (model w) false i) as [[t|x] m'] eqn:Hm;
        [|discriminate].
      cbn [fst]. intros H. exists d, i, p', t, m'.
      repeat (split; [reflexivity || assumption|]).
      symmetry. apply embedding_payload_inj. congruence.
    + cbn [fst]. intros H. exfalso.
      apply (error_payload_not_embedding e). congruence.
  - intros (d & i & p' & t & m' & -> & Htruthy & Hprint & Hp & Hm & ->).
    cbn zeta.
    rewrite Htruthy, Hprint, get_text_embedding_run.
    cbn [processor model after_print]. now rewrite Hp, Hm.
Qed.

(** X3.  A body that parses to a JSON value other than an object (a
    list, a string, a number, [null]) makes [embed_text] raise
    [AttributeError] at [body.get]: the framework answers 500, nothing
    is printed and neither processor nor model is called. *)
Theorem embed_text_non_object_server_error
    (request : Request) (w : World L) (b : pyval) :
  json_loads L (body request) = Ok b ->
  (forall d, b <> PDict d) ->
  serve embed_text_route request w
  = (ServerError 500 (AttributeError "object has no attribute 'get'"), w).
Proof.
  intros Hjson Hb. unfold serve, embed_text_route. cbn [handler status_code].
  now rewrite (embed_text_non_object_raises request w b Hjson Hb).
Qed.

(** The wrappers leave grad mode and the output as they found them,
    whatever the libraries do and whether or not they raise. *)
Lemma get_text_embedding_keeps (text : pyval) (w : World L) :
  grad_enabled (get_text_embedding text w).2 = grad_enabled w /\
  stdout (get_text_embedding text w).2 = stdout w.
Proof.
  rewrite get_text_embedding_run.
  destruct (processor_text L (processor w) [text]) as [[i|x] p'];
    [|now split].
  destruct (get_text_features L (model w) false i) as [[t|x] m'];
    now split.
Qed.

Lemma get_image_embedding_keeps (file : UploadFile) (w : World L) :
  grad_enabled (get_image_embedding file w).2 = grad_enabled w /\
  stdout (get_image_embedding file w).2 = stdout w.
Proof.
  rewrite get_image_embedding_run.
  destruct (image_open L (content file)) as [img|x]; [|now split].
  destruct (processor_images L (processor w) img) as [[i|x] p'];
    [|now split].
  destruct (get_image_features L (model w) false i) as [[t|x] m'];
    now split.
Qed.


(** X5.  Both wrappers and both handlers leave torch's grad mode as
    they found it, whether the libraries return or raise, and the
    image path and the two wrappers print nothing. *)
Theorem handlers_restore_grad_mode (w : World L) :
  (forall text,
     grad_enabled (get_text_embedding text w).2 = grad_enabled w /\
     stdout (get_text_embedding text w).2 = stdout w) /\
  (forall file,
     grad_enabled (get_image_embedding file w).2 = grad_enabled w /\
     stdout (get_image_embedding file w).2 = stdout w) /\
  (forall file,
     grad_enabled (embed_image file w).2 = grad_enabled w /\
     stdout (embed_image file w).2 = stdout w) /\
  (forall request, grad_enabled (embed_text request w).2 = grad_enabled w).
Proof.
  split; [intros text; apply get_text_embedding_keeps|].
  split; [intros file; apply get_image_embedding_keeps|].
  split.
  - intros file. rewrite embed_image_run.
    pose proof (get_image_embedding_keeps file w) as H.
    destruct (get_image_embedding file w) as [[e|x] w']; exact H.
  - intros request. rewrite embed_text_run.
    destruct (json_loads L (body request)) as [b|x]; [|reflexivity].
    destruct b as [| | | | | |d]; try reflexivity. cbn zeta.
    destruct (truthy (default PNone (d !! "text"))); [|reflexivity].
    destruct (stdout_write L _) as [u|x]; [|reflexivity].
    destruct (get_text_embedding_keeps (default PNone (d !! "text"))
                (after_print (default PNone (d !! "text")) w)) as [H _].
    destruct (get_text_embedding _ _) as [[e|x] w']; exact H.
Qed.

(** X6.  Only the value under ["text"] matters: two JSON-object bodies
    with the same value there (other keys differing at will, a [null]
    counting as an absent key) are answered alike and leave the same
    world. *)
Theorem embed_text_ignores_other_keys
    (request1 request2 : Request) (w : World L)
    (d1 d2 : gmap string pyval) :
  json_loads L (body request1) = Ok (PDict d1) ->
  json_loads L (body request2) = Ok (PDict d2) ->
  default PNone (d1 !! "text") = default PNone (d2 !! "text") ->
  embed_text request1 w = embed_text request2 w.
Proof.
  intros H1 H2 Htext. rewrite !embed_text_run, H1, H2. cbn zeta.
  now rewrite Htext.
Qed.

(** X7.  No failure of the text path is caught.  For a JSON-object body
    with a truthy ["text"] on which the handler's line is printed, when
    the processor raises, or returns and the encoder raises,
    [embed_text] raises that same exception, the line staying printed,
    and the framework answers 500; when it is the processor that
    raises, the model is not touched. *)
Theorem embed_text_propagates
    (request : Request) (w : World L) (d : gmap string pyval) (e : exn) :
  json_loads L (body request) = Ok (PDict d) ->
  let text := default PNone (d !! "text") in
  truthy text = true ->
  stdout_write L (received_line L text) = Ok tt ->
  ((processor_text L (processor w) [text]).1 = Raise e \/
   exists i p', processor_text L (processor w) [text] = (Ok i, p') /\
                (get_text_features L (model w) false i).1 = Raise e) ->
  (embed_text request w).1 = Raise e /\
  response_status (serve embed_text_route request w).1 = 500%Z /\
  stdout (embed_text request w).2
  = (stdout w ++ [received_line L text])%list /\
  ((processor_text L (processor w) [text]).1 = Raise e ->
   model (embed_text request w).2 = model w).
Proof.
  intros Hjson text Htruthy Hprint Hfail.
  assert (Hrun : embed_text request w =
                 match get_text_embedding text (after_print text w) with
                 | (Ok v, w') => (Ok (embedding_payload v), w')
                 | (Raise x, w') => (Raise x, w')
                 end).
  { rewrite embed_text_run, Hjson. cbn zeta. fold text.
    now rewrite Htruthy, Hprint. }
  assert (Hraise : (embed_text request w).1 = Raise e).
  { rewrite Hrun, get_text_embedding_run. cbn [processor model after_print].
    destruct Hfail as [Hp | (i & p' & Hp & Hm)].
    - destruct (processor_text L (processor w) [text]) as [[i|x] p'];
        cbn [fst] in Hp; [discriminate|]. now injection Hp as ->.
    - rewrite Hp.
      destruct (get_text_features L (model w) false i) as [[t|x] m'];
        cbn [fst] in Hm; [discriminate|]. now injection Hm as ->. }
  split; [exact Hraise|]. split; [|split].
  - unfold serve, embed_text_route. cbn [handler status_code].
    destruct (embed_text request w) as [[v|x] w']; cbn [fst] in Hraise;
      [discriminate|reflexivity].
  - rewrite Hrun.
    destruct (get_text_embedding_keeps text (after_print text w)) as [_ Hout].
    destruct (get_text_embedding text (after_print text w)) as [[v|x] w'];
      exact Hout.
  - intros Hp. rewrite Hrun, get_text_embedding_run.
    cbn [processor model after_print].
    destruct (processor_text L (processor w) [text]) as [[i|x] p'];
      cbn [fst] in Hp; [discriminate|reflexivity].
Qed.


(** X8.  No failure of the image path is caught either.  When
    [Image.open] raises, [embed_image] raises with the world untouched:
    neither processor nor model has been called.  When the image opens,
    the processor returns and the encoder raises, [embed_image] raises
    the encoder's exception and the framework answers 500. *)
Theorem embed_image_propagates
    (file : UploadFile) (w : World L) (e : exn) :
  (image_open L (content file) = Raise e ->
   embed_image file w = (Raise e, w)) /\
  (forall img i p',
     image_open L (content file) = Ok img ->
     processor_images L (processor w) img = (Ok i, p') ->
     (get_image_features L (model w) false i).1 = Raise e ->
     (embed_image file w).1 = Raise e /\
     response_status (serve embed_image_route file w).1 = 500%Z).
Proof.
  split.
  - intros Hopen. now rewrite embed_image_run, get_image_embedding_run, Hopen.
  - intros img i p' Hopen Hp Hm.
    assert (Hraise : (embed_image file w).1 = Raise e).
    { rewrite embed_image_run, get_image_embedding_run, Hopen, Hp.
      destruct (get_image_features L (model w) false i) as [[t|x] m'];
        cbn [fst] in Hm; [discriminate|]. now injection Hm as ->. }
    split; [exact Hraise|].
    unfold serve, embed_image_route. cbn [handler status_code].
    destruct (embed_image file w) as [[v|x] w']; cbn [fst] in Hraise;
      [discriminate|reflexivity].
Qed.

(** The answer of a handler is read off the model and the processor
    alone. *)
Lemma embed_text_same_objects (request : Request) (w w' : World L) :
  model w = model w' ->
  processor w = processor w' ->
  (embed_text request w).1 = (embed_text request w').1.
Proof.
  intros Hm Hp. rewrite !embed_text_run.
  destruct (json_loads L (body request)) as [b|x]; [|reflexivity].
  destruct b as [| | | | | |d]; try reflexivity. cbn zeta.
  destruct (truthy (default PNone (d !! "text"))); [|reflexivity].
  destruct (stdout_write L _) as [u|x]; [|reflexivity].
  rewrite !get_text_embedding_run. cbn [processor model after_print].
  rewrite <- Hm, <- Hp.
  destruct (processor_text L (processor w) _) as [[i|x] p']; [|reflexivity].
  destruct (get_text_features L (model w) false i) as [[t|x] m'];
    reflexivity.
Qed.

Lemma embed_image_same_objects (file : UploadFile) (w w' : World L) :
  model w = model w' ->
  processor w = processor w' ->
  (embed_image file w).1 = (embed_image file w').1.
Proof.
  intros Hm Hp. rewrite !embed_image_run, !get_image_embedding_run.
  rewrite <- Hm, <- Hp.
  destruct (image_open L (content file)) as [img|x]; [|reflexivity].
  destruct (processor_images L (processor w) img) as [[i|x] p'];
    [|reflexivity].
  destruct (get_image_features L (model w) false i) as [[t|x] m'];
    reflexivity.
Qed.

(** What a handled request leaves of the model and the processor, when
    the libraries' own calls do not write to them. *)
Lemma embed_text_objects (request : Request) (w : World L) :
  processor_readonly L ->
  no_grad_forward_readonly L ->
  model (embed_text request w).2 = model w /\
  processor (embed_text request w).2 = processor w.
Proof.
  intros Hp Hf. rewrite embed_text_run.
  destruct (json_loads L (body request)) as [b|x]; [|now split].
  destruct b as [| | | | | |d]; try now split. cbn zeta.
  destruct (truthy (default PNone (d !! "text"))); [|now split].
  destruct (stdout_write L _) as [u|x]; [|now split].
  pose proof (get_text_embedding_frame (default PNone (d !! "text"))
                (after_print (default PNone (d !! "text")) w) Hp Hf) as H.
  destruct (get_text_embedding _ _) as [[e|x] w']; cbn [snd] in *; subst w';
    now split.
Qed.

Lemma embed_image_objects (file : UploadFile) (w : World L) :
  processor_readonly L ->
  no_grad_forward_readonly L ->
  (embed_image file w).2 = w.
Proof.
  intros Hp Hf. rewrite embed_image_run.
  pose proof (get_image_embedding_frame file w Hp Hf) as H.
  destruct (get_image_embedding file w) as [[e|x] w']; exact H.
Qed.

(** X9.  Requests do not interfere.  When the libraries' own calls do
    not write to the objects they are applied to (preprocessing, and a
    forward pass with grad mode off), the answer to a request of either
    kind is the same whether or not another request, of either kind,
    has been handled just before it. *)
Theorem requests_do_not_interfere
    (w : World L) (request : Request) (file : UploadFile) :
  processor_readonly L ->
  no_grad_forward_readonly L ->
  (forall earlier : Request,
     (embed_text request (embed_text earlier w).2).1
     = (embed_text request w).1 /\
     (embed_image file (embed_text earlier w).2).1
     = (embed_image file w).1) /\
  (forall earlier : UploadFile,
     (embed_text request (embed_image earlier w).2).1
     = (embed_text request w).1 /\
     (embed_image file (embed_image earlier w).2).1
     = (embed_image file w).1).
Proof.
  intros Hp Hf. split.
  - intros earlier.
    destruct (embed_text_objects earlier w Hp Hf) as [Hm Hpr].
    split; [apply embed_text_same_objects | apply embed_image_same_objects];
      assumption.
  - intros earlier. now rewrite (embed_image_objects earlier w Hp Hf).
Qed.

End Extras.

(** ** The second instance *)

Lemma bounded_loads_cat :
  json_loads Bounded.lib (body (Toy.post Toy.doc_cat))
  = Ok (PDict {[ "text" := PStr "cat" ]}).
Proof. vm_compute. reflexivity. Qed.

Lemma bounded_loads_cat_lang :
  json_loads Bounded.lib (body (Toy.post Bounded.doc_cat_lang))
  = Ok (PDict (<[ "lang" := PStr "en" ]> {[ "text" := PStr "cat" ]})).
Proof. vm_compute. reflexivity. Qed.

Lemma bounded_loads_long :
  json_loads Bounded.lib (body (Toy.post Bounded.doc_long))
  = Ok (PDict {[ "text" := PStr Bounded.long_text ]}).
Proof. vm_compute. reflexivity. Qed.

Lemma toy_loads_array :
  json_loads Toy.lib (body (Toy.post Toy.doc_array)) = Ok (PList []).
Proof. vm_compute. reflexivity. Qed.

(** ** The further theorems at concrete requests *)

Lemma embed_text_non_object_server_error_witness :
  serve (L:=Toy.lib) embed_text_route (Toy.post Toy.doc_array) Toy.w0
  = (ServerError 500 (AttributeError "object has no attribute 'get'"),
     Toy.w0).
Proof.
  apply (embed_text_non_object_server_error (L:=Toy.lib)
           (Toy.post Toy.doc_array) Toy.w0 (PList []) toy_loads_array).
  intros d. discriminate.
Defined.


Lemma embed_text_ignores_other_keys_witness :
  embed_text (L:=Bounded.lib) (Toy.post Toy.doc_cat) Bounded.w0
  = embed_text (L:=Bounded.lib) (Toy.post Bounded.doc_cat_lang) Bounded.w0.
Proof.
  apply (embed_text_ignores_other_keys (L:=Bounded.lib)
           (Toy.post Toy.doc_cat) (Toy.post Bounded.doc_cat_lang) Bounded.w0
           {[ "text" := PStr "cat" ]}
           (<[ "lang" := PStr "en" ]> {[ "text" := PStr "cat" ]})
           bounded_loads_cat bounded_loads_cat_lang).
  rewrite lookup_insert_ne by discriminate. reflexivity.
Defined.

Lemma embed_text_propagates_witness :
  (embed_text (L:=Bounded.lib) (Toy.post Bounded.doc_long) Bounded.w0).1
  = Raise (LibraryError "torch" "RuntimeError") /\
  response_status
    (serve (L:=Bounded.lib) embed_text_route (Toy.post Bounded.doc_long)
       Bounded.w0).1 = 500%Z.
Proof.
  pose proof (embed_text_propagates (L:=Bounded.lib)
                (Toy.post Bounded.doc_long) Bounded.w0
                {[ "text" := PStr Bounded.long_text ]}
                (LibraryError "torch" "RuntimeError")
                bounded_loads_long) as H.
  cbv zeta in H. rewrite lookup_singleton_eq in H.
  destruct (H eq_refl eq_refl) as [Hraise [Hstatus _]].
  - right. exists [100], tt. split; reflexivity.
  - split; assumption.
Defined.


Lemma embed_image_propagates_witness :
  (embed_image (L:=Bounded.lib) Bounded.upload_large Bounded.w0).1
  = Raise (LibraryError "torch" "RuntimeError") /\
  response_status
    (serve (L:=Bounded.lib) embed_image_route Bounded.upload_large
       Bounded.w0).1 = 500%Z.
Proof.
  apply (proj2 (embed_image_propagates (L:=Bounded.lib) Bounded.upload_large
                  Bounded.w0 (LibraryError "torch" "RuntimeError"))
           (content Bounded.upload_large) [104] tt);
    reflexivity.
Defined.

Lemma requests_do_not_interfere_witness :
  (embed_text (L:=Toy.lib) (Toy.post Toy.doc_cat)
     (embed_image (L:=Toy.lib) Toy.upload_png Toy.w0).2).1
  = (embed_text (L:=Toy.lib) (Toy.post Toy.doc_cat) Toy.w0).1 /\
  (embed_image (L:=Toy.lib) Toy.upload_png
     (embed_text (L:=Toy.lib) (Toy.post Toy.doc_cat) Toy.w0).2).1
  = (embed_image (L:=Toy.lib) Toy.upload_png Toy.w0).1.
Proof.
  destruct (requests_do_not_interfere (L:=Toy.lib) Toy.w0
              (Toy.post Toy.doc_cat) Toy.upload_png
              toy_processor_readonly toy_no_grad_forward_readonly)
    as [Htext Himage].
  split.
  - exact (proj1 (Himage Toy.upload_png)).
  - exact (proj2 (Htext (Toy.post Toy.doc_cat))).
Defined.
